(** * SMART CVD risk calculator: risk estimator and reduction composer

    Shallow embedding of [SP-cvd_risk_app_final_ready.py].  The Python
    floats are modelled as real numbers ([R]); Python's [round(x, 1)] is
    rounding of [x*10] to the nearest integer with ties to even, divided
    by 10.  Integer-valued widgets (age, SBP, eGFR, vascular count) are
    [Z].  A small binary64 rounding model on [Q] is used only where a
    property is about bit-level equality of two float expressions. *)

From Stdlib Require Import Reals Lra Lia ZArith QArith String List Bool Permutation.
From Stdlib Require Import ROrderedType.
Import ListNotations.
Open Scope R_scope.

(** ** Python's [round(x, 1)] *)

(** Nearest integer, ties to even (Python's rounding rule). *)
Definition round_half_even (y : R) : Z :=
  let n := Int_part y in
  let f := y - IZR n in
  match Rcompare f (1/2) with
  | Lt => n
  | Gt => (n + 1)%Z
  | Eq => if Z.even n then n else (n + 1)%Z
  end.

(** [round(x, 1)] *)
Definition py_round1 (x : R) : R := IZR (round_half_even (x * 10)) / 10.

(** Python's [x ** y] for a non-negative base and a positive exponent:
    [0.0 ** y = 0.0]; for a positive base it is [exp (y * ln x)]. *)
Definition py_pow (x y : R) : R :=
  match Rlt_dec 0 x with
  | left _ => Rpower x y
  | right _ => 0
  end.

(** ** RiskEstimator *)

Record profile := {
  age : Z;
  sex : string;
  sbp : Z;
  total_chol : R;
  hdl : R;
  smoker : bool;
  diabetes : bool;
  egfr : Z;
  crp : R;
  vasc_count : Z
}.

(** [estimate_smart_risk] (lines 32-41).  [math.log(crp + 1) if crp else 0]:
    a zero CRP is falsy. *)
Definition estimate_smart_risk (p : profile) : R :=
  let sex_val := if String.eqb (sex p) "Male" then 1 else 0 in
  let smoking_val := if smoker p then 1 else 0 in
  let diabetes_val := if diabetes p then 1 else 0 in
  let crp_log := if Req_dec_T (crp p) 0 then 0 else ln (crp p + 1) in
  let lp := 0.064 * IZR (age p) + 0.34 * sex_val + 0.02 * IZR (sbp p)
            + 0.25 * total_chol p - 0.25 * hdl p + 0.44 * smoking_val
            + 0.51 * diabetes_val - 0.2 * (IZR (egfr p) / 10)
            + 0.25 * crp_log + 0.4 * IZR (vasc_count p) in
  let risk10 := 1 - Rpower 0.900 (exp (lp - 5.8)) in
  py_round1 (risk10 * 100).

(** [estimate_5yr_from_10yr] (lines 43-46). *)
Definition estimate_5yr_from_10yr (risk10 : R) : R :=
  let p := risk10 / 100 in
  let risk5 := 1 - py_pow (1 - p) 0.5 in
  py_round1 (risk5 * 100).

(** ** Reference tables (lines 6-29) *)

Record intervention := {
  iv_name : string;
  arr_lifetime : R;
  arr_5yr : R
}.

Definition interventions : list intervention := [
  {| iv_name := "Smoking cessation"; arr_lifetime := 17; arr_5yr := 5 |};
  {| iv_name := "Antiplatelet (ASA or clopidogrel)"; arr_lifetime := 6; arr_5yr := 2 |};
  {| iv_name := "BP control (ACEi/ARB Â± CCB)"; arr_lifetime := 12; arr_5yr := 4 |};
  {| iv_name := "Semaglutide 2.4 mg"; arr_lifetime := 4; arr_5yr := 1 |};
  {| iv_name := "Weight loss to ideal BMI"; arr_lifetime := 10; arr_5yr := 3 |};
  {| iv_name := "Empagliflozin"; arr_lifetime := 6; arr_5yr := 2 |};
  {| iv_name := "Icosapent ethyl (TG â‰¥1.5)"; arr_lifetime := 5; arr_5yr := 2 |};
  {| iv_name := "Mediterranean diet"; arr_lifetime := 9; arr_5yr := 3 |};
  {| iv_name := "Physical activity"; arr_lifetime := 9; arr_5yr := 3 |};
  {| iv_name := "Alcohol moderation"; arr_lifetime := 5; arr_5yr := 2 |};
  {| iv_name := "Stress reduction"; arr_lifetime := 3; arr_5yr := 1 |}
].

(** The dict [ldl_therapies], in insertion order. *)
Definition ldl_therapies : list (string * R) := [
  ("Atorvastatin 20 mg"%string, 40);
  ("Atorvastatin 80 mg"%string, 50);
  ("Rosuvastatin 10 mg"%string, 40);
  ("Rosuvastatin 20â€“40 mg"%string, 55);
  ("Simvastatin 40 mg"%string, 35);
  ("Ezetimibe"%string, 20);
  ("PCSK9 inhibitor"%string, 60);
  ("Bempedoic acid"%string, 18)
].

(** ** Horizon and baseline risk (lines 55, 111-118) *)

Inductive horizon := H5yr | H10yr | Hlifetime.

Definition baseline_risk (h : horizon) (risk10 risk5 : R) : R :=
  match h with
  | H5yr => risk5
  | H10yr => risk10
  | Hlifetime => risk10
  end.

(** The code's pipeline from the inputs to [baseline_risk]. *)
Definition baseline_of_profile (p : profile) (h : horizon) : R :=
  let risk10 := estimate_smart_risk p in
  let risk5 := estimate_5yr_from_10yr risk10 in
  baseline_risk h risk10 risk5.

(** ** LDL-C therapy stack (lines 83-94)

    [on_therapy] and [additional] are built by iterating over the keys of
    [ldl_therapies]; the loops then read [ldl_therapies[d]] for each such
    key, i.e. the entry's own potency.  The selections are kept as the
    dict entries they came from.  [checked d] and [checked_new d] are the
    states of the checkboxes [d] and [d + " (new)"]. *)

Definition select_on_therapy (catalog : list (string * R)) (checked : string -> bool)
  : list (string * R) :=
  filter (fun e => checked (fst e)) catalog.

Definition select_additional (catalog : list (string * R))
  (on_therapy : list (string * R)) (checked_new : string -> bool) : list (string * R) :=
  filter (fun e => negb (existsb (String.eqb (fst e)) (map fst on_therapy))
                   && checked_new (fst e)) catalog.

Definition adjusted_ldl (baseline_ldl : R) (on_therapy : list (string * R)) : R :=
  Rmax (fold_left (fun l e => l * (1 - snd e / 100)) on_therapy baseline_ldl) 1.0.

Definition final_ldl (adjusted : R) (additional : list (string * R)) : R :=
  Rmax (fold_left (fun l e => l * (1 - (snd e / 100) * 0.5)) additional adjusted) 1.0.

(** [final_ldl] as the page derives it from the checkbox states. *)
Definition derived_final_ldl (catalog : list (string * R)) (baseline_ldl : R)
  (checked checked_new : string -> bool) : R :=
  let on := select_on_therapy catalog checked in
  let add := select_additional catalog on checked_new in
  final_ldl (adjusted_ldl baseline_ldl on) add.

(** ** ReductionComposer (lines 120-139) *)

Definition iv_arr (h : horizon) (iv : intervention) : R :=
  match h with
  | H5yr => arr_5yr iv
  | _ => arr_lifetime iv
  end.

(** [for iv in interventions: if iv["name"] in selected_iv: ...] *)
Definition apply_interventions (catalog : list intervention) (h : horizon)
  (selected : list string) (remaining : R) : R :=
  fold_left (fun r iv =>
               if existsb (String.eqb (iv_name iv)) selected
               then r * (1 - iv_arr h iv / 100) else r)
            catalog remaining.

Definition ldl_rrr (baseline_ldl final_ldl : R) : R :=
  let ldl_drop := baseline_ldl - final_ldl in
  Rmin (22 * ldl_drop) 35.

Definition ldl_step (baseline_ldl final_ldl remaining : R) : R :=
  remaining * (1 - ldl_rrr baseline_ldl final_ldl / 100).

Definition bp_rrr (sbp_current sbp_target : Z) : R :=
  Rmin (15 * (IZR (sbp_current - sbp_target) / 10)) 20.

Definition bp_step (sbp_current sbp_target : Z) (remaining : R) : R :=
  remaining * (1 - bp_rrr sbp_current sbp_target / 100).

Definition composed_remaining (catalog : list intervention) (baseline : R) (h : horizon)
  (selected : list string) (baseline_ldl final_ldl : R) (sbp_current sbp_target : Z) : R :=
  let remaining := apply_interventions catalog h selected (baseline / 100) in
  let remaining := ldl_step baseline_ldl final_ldl remaining in
  bp_step sbp_current sbp_target remaining.

Record risk_result := {
  final_risk : R;
  arr : R;
  rrr : R
}.

(** [rrr = round(arr/baseline_risk*100, 1) if baseline_risk else 0]:
    the guard is Python truthiness, i.e. [baseline_risk != 0]. *)
Definition compose (catalog : list intervention) (baseline : R) (h : horizon)
  (selected : list string) (baseline_ldl final_ldl : R) (sbp_current sbp_target : Z)
  : risk_result :=
  let remaining :=
    composed_remaining catalog baseline h selected baseline_ldl final_ldl
      sbp_current sbp_target in
  let final_risk := py_round1 (remaining * 100) in
  let arr := py_round1 (baseline - final_risk) in
  let rrr := if Req_dec_T baseline 0 then 0 else py_round1 (arr / baseline * 100) in
  {| final_risk := final_risk; arr := arr; rrr := rrr |}.

(** Factor contributed by one catalog entry for a given selection. *)
Definition iv_factor (h : horizon) (selected : list string) (iv : intervention) : R :=
  if existsb (String.eqb (iv_name iv)) selected then 1 - iv_arr h iv / 100 else 1.

(** A selection without the name [x]. *)
Definition drop_name (x : string) (l : list string) : list string :=
  filter (fun s => negb (String.eqb s x)) l.

(** ** Definitions following the spec's wording, compared with the code's *)

(** Spec 4.1: [lp] with [- 0.02 * eGFR] and the ln term 0 for a zero CRP. *)
Definition estimate_baseline_risk10_spec (p : profile) : R :=
  let sex_male := if String.eqb (sex p) "Male" then 1 else 0 in
  let ln_term := ln (crp p + 1) in
  let lp := 0.064 * IZR (age p) + 0.34 * sex_male + 0.02 * IZR (sbp p)
            + 0.25 * total_chol p - 0.25 * hdl p
            + 0.44 * (if smoker p then 1 else 0) + 0.51 * (if diabetes p then 1 else 0)
            - 0.02 * IZR (egfr p) + 0.25 * ln_term + 0.4 * IZR (vasc_count p) in
  py_round1 ((1 - Rpower 0.900 (exp (lp - 5.8))) * 100).

Definition lookup_iv (catalog : list intervention) (name : string) : option intervention :=
  find (fun iv => String.eqb (iv_name iv) name) catalog.

Definition spec_arr (catalog : list intervention) (h : horizon) (name : string) : R :=
  match lookup_iv catalog name with
  | Some iv => match h with H5yr => arr_5yr iv | H10yr | Hlifetime => arr_lifetime iv end
  | None => 0
  end.

(** Spec 4.2: one factor per selected name (in selection order), then the
    LDL and BP factors; [finalRisk] and [arr]. *)
Definition compose_spec (catalog : list intervention) (baseline : R) (h : horizon)
  (selected : list string) (baseline_ldl final_ldl : R) (sbp_current sbp_target : Z)
  : R * R :=
  let r := fold_left (fun r s => r * (1 - spec_arr catalog h s / 100)) selected
             (baseline / 100) in
  let r := r * (1 - Rmin (22 * (baseline_ldl - final_ldl)) 35 / 100) in
  let r := r * (1 - Rmin (15 * ((IZR sbp_current - IZR sbp_target) / 10)) 20 / 100) in
  let final := py_round1 (r * 100) in
  (final, py_round1 (baseline - final)).

(** Spec 4.2: the two-stage therapy stack over the potencies of the active
    and of the newly added therapies. *)
Definition final_ldl_spec (baseline_ldl : R) (active new : list R) : R :=
  let ldl := fold_left (fun l p => l * (1 - p / 100)) active baseline_ldl in
  let ldl := Rmax ldl 1.0 in
  let ldl := fold_left (fun l p => l * (1 - p / 100 * 0.5)) new ldl in
  Rmax ldl 1.0.

(** ** Binary64 arithmetic on positive rationals

    Round-to-nearest-even to 53 significant bits (normal range), used to
    evaluate single float expressions of the source bit for bit. *)

Definition b64_round_int (num den : Z) : Z :=
  let m := (num / den)%Z in
  let r := (num mod den)%Z in
  match Z.compare (2 * r) den with
  | Lt => m
  | Gt => (m + 1)%Z
  | Eq => if Z.even m then m else (m + 1)%Z
  end.

(** numerator and denominator of [q / 2^e] *)
Definition b64_scale (q : Q) (e : Z) : Z * Z :=
  if Z.leb 0 e then (Qnum q, (Zpos (Qden q) * 2 ^ e)%Z)
  else ((Qnum q * 2 ^ (- e))%Z, Zpos (Qden q)).

Definition b64_round (q : Q) : Q :=
  let e0 := (Z.log2 (Qnum q) - Z.log2 (Zpos (Qden q)) - 52)%Z in
  let e := if Z.leb (2 ^ 52) (fst (b64_scale q e0) / snd (b64_scale q e0))%Z
           then e0 else (e0 - 1)%Z in
  let m := b64_round_int (fst (b64_scale q e)) (snd (b64_scale q e)) in
  if Z.leb 0 e then inject_Z (m * 2 ^ e) else Qmake m (Z.to_pos (2 ^ (- e))).

(** The code's eGFR term [0.2*(egfr/10)] in binary64: the literal, the true
    division of two ints, and the product are each rounded. *)
Definition egfr_term_code_b64 (egfr : Z) : Q :=
  b64_round (b64_round (1 # 5) * b64_round (Qmake egfr 10)).

(** The spec's eGFR term [0.02 * eGFR] in binary64. *)
Definition egfr_term_spec_b64 (egfr : Z) : Q :=
  b64_round (b64_round (1 # 50) * inject_Z egfr).

(** ** Valid profiles: the input widgets' ranges (lines 60-72) *)

Definition valid_profile (p : profile) : Prop :=
  (30 <= age p <= 90)%Z /\ (sex p = "Male" \/ sex p = "Female")%string /\
  (80 <= sbp p <= 220)%Z /\ 2 <= total_chol p <= 10 /\ 0.5 <= hdl p <= 3 /\
  (15 <= egfr p <= 120)%Z /\ 0.1 <= crp p <= 20 /\ (0 <= vasc_count p <= 3)%Z.

(** The profile at the top of every range that raises the risk. *)
Definition profile_max : profile := {|
  age := 90; sex := "Male"; sbp := 220; total_chol := 10; hdl := 0.5;
  smoker := true; diabetes := true; egfr := 15; crp := 20; vasc_count := 3 |}.

(** ** The linear predictor of [estimate_smart_risk] (lines 33-39) *)

Definition lp_of (p : profile) : R :=
  let sex_val := if String.eqb (sex p) "Male" then 1 else 0 in
  let smoking_val := if smoker p then 1 else 0 in
  let diabetes_val := if diabetes p then 1 else 0 in
  let crp_log := if Req_dec_T (crp p) 0 then 0 else ln (crp p + 1) in
  0.064 * IZR (age p) + 0.34 * sex_val + 0.02 * IZR (sbp p)
  + 0.25 * total_chol p - 0.25 * hdl p + 0.44 * smoking_val
  + 0.51 * diabetes_val - 0.2 * (IZR (egfr p) / 10)
  + 0.25 * crp_log + 0.4 * IZR (vasc_count p).

(** ** The page script: input branches and the calculation (lines 52-139)

    Each Streamlit run executes the script top to bottom in a fresh
    namespace.  The two input branches bind module-level names; the
    calculation then reads them.  A name that the branch did not bind
    raises [NameError]. *)

Inductive py_value :=
  | PyInt (z : Z)
  | PyFloat (r : R)
  | PyBool (b : bool)
  | PyStr (s : string)
  | PyStrList (l : list string).

(** Bindings in assignment order; a later assignment shadows an earlier one. *)
Definition env := list (string * py_value).

Definition env_get (e : env) (x : string) : option py_value :=
  match find (fun kv => String.eqb (fst kv) x) (rev e) with
  | Some kv => Some (snd kv)
  | None => None
  end.

Inductive py_result (A : Type) :=
  | PyOk (a : A)
  | PyNameError (name : string)
  | PyTypeError (name : string).
Arguments PyOk {A} a.
Arguments PyNameError {A} name.
Arguments PyTypeError {A} name.

Definition py_bind {A B : Type} (m : py_result A) (k : A -> py_result B) : py_result B :=
  match m with
  | PyOk a => k a
  | PyNameError x => PyNameError x
  | PyTypeError x => PyTypeError x
  end.

Notation "x <- m ;; k" := (py_bind m (fun x => k))
  (at level 61, m at next level, right associativity).

(** Reading a name as an int, a number (int or float), a bool, a str or a
    list of str. *)
Definition read_int (e : env) (x : string) : py_result Z :=
  match env_get e x with
  | Some (PyInt z) => PyOk z
  | Some _ => PyTypeError x
  | None => PyNameError x
  end.

Definition read_num (e : env) (x : string) : py_result R :=
  match env_get e x with
  | Some (PyInt z) => PyOk (IZR z)
  | Some (PyFloat r) => PyOk r
  | Some _ => PyTypeError x
  | None => PyNameError x
  end.

Definition read_bool (e : env) (x : string) : py_result bool :=
  match env_get e x with
  | Some (PyBool b) => PyOk b
  | Some _ => PyTypeError x
  | None => PyNameError x
  end.

Definition read_str (e : env) (x : string) : py_result string :=
  match env_get e x with
  | Some (PyStr s) => PyOk s
  | Some _ => PyTypeError x
  | None => PyNameError x
  end.

Definition read_strs (e : env) (x : string) : py_result (list string) :=
  match env_get e x with
  | Some (PyStrList l) => PyOk l
  | Some _ => PyTypeError x
  | None => PyNameError x
  end.

(** The values the widgets return in one run. *)
Record widgets := {
  w_age : Z;
  w_sex : string;
  w_smoker : bool;
  w_diabetes : bool;
  w_egfr : Z;
  w_total_chol : R;
  w_hdl : R;
  w_crp : R;
  w_vasc : list bool;
  w_sbp_current : Z;
  w_sbp_target : Z;
  w_baseline_ldl : R;
  w_checked : string -> bool;
  w_checked_new : string -> bool;
  w_selected_iv : list string;
  w_final_ldl : R
}.

(** [if not patient_mode:] branch (lines 59-97). *)
Definition expert_env (w : widgets) : env :=
  let on := select_on_therapy ldl_therapies (w_checked w) in
  let add := select_additional ldl_therapies on (w_checked_new w) in
  let adjusted := adjusted_ldl (w_baseline_ldl w) on in
  [("age", PyInt (w_age w)); ("sex", PyStr (w_sex w));
   ("smoker", PyBool (w_smoker w)); ("diabetes", PyBool (w_diabetes w));
   ("egfr", PyInt (w_egfr w)); ("total_chol", PyFloat (w_total_chol w));
   ("hdl", PyFloat (w_hdl w)); ("crp", PyFloat (w_crp w));
   ("vasc_count", PyInt (Z.of_nat (length (filter (fun b => b) (w_vasc w)))));
   ("sbp_current", PyInt (w_sbp_current w)); ("sbp_target", PyInt (w_sbp_target w));
   ("baseline_ldl", PyFloat (w_baseline_ldl w));
   ("on_therapy", PyStrList (map fst on));
   ("adjusted_ldl", PyFloat (w_baseline_ldl w));
   ("adjusted_ldl", PyFloat adjusted);
   ("additional", PyStrList (map fst add));
   ("final_ldl", PyFloat adjusted);
   ("final_ldl", PyFloat (final_ldl adjusted add));
   ("selected_iv", PyStrList (w_selected_iv w))]%string.

(** [else:] the patient-friendly branch (lines 100-108). *)
Definition patient_env (w : widgets) : env :=
  [("age", PyInt (w_age w));
   ("sbp_current", PyInt (w_sbp_current w)); ("sbp_target", PyInt (w_sbp_target w));
   ("total_chol", PyFloat (w_total_chol w));
   ("baseline_ldl", PyFloat (w_baseline_ldl w));
   ("final_ldl", PyFloat (w_final_ldl w));
   ("selected_iv", PyStrList []);
   ("vasc_count", PyInt 1); ("smoker", PyBool false); ("diabetes", PyBool false);
   ("egfr", PyInt 80); ("hdl", PyFloat 1.0); ("crp", PyFloat 2.0);
   ("on_therapy", PyStrList [])]%string.

Definition page_env (patient_mode : bool) (w : widgets) : env :=
  if patient_mode then patient_env w else expert_env w.

(** Lines 111-139: the arguments of [estimate_smart_risk] are read left to
    right, then the names the composition uses. *)
Definition calculate (h : horizon) (e : env) : py_result risk_result :=
  a <- read_int e "age" ;;
  sx <- read_str e "sex" ;;
  sbp_current <- read_int e "sbp_current" ;;
  tc <- read_num e "total_chol" ;;
  hd <- read_num e "hdl" ;;
  sm <- read_bool e "smoker" ;;
  db <- read_bool e "diabetes" ;;
  eg <- read_int e "egfr" ;;
  cr <- read_num e "crp" ;;
  vc <- read_int e "vasc_count" ;;
  let p := {| age := a; sex := sx; sbp := sbp_current; total_chol := tc; hdl := hd;
              smoker := sm; diabetes := db; egfr := eg; crp := cr; vasc_count := vc |} in
  let risk10 := estimate_smart_risk p in
  let risk5 := estimate_5yr_from_10yr risk10 in
  let baseline := baseline_risk h risk10 risk5 in
  selected_iv <- read_strs e "selected_iv" ;;
  baseline_ldl <- read_num e "baseline_ldl" ;;
  fl <- read_num e "final_ldl" ;;
  sbp_target <- read_int e "sbp_target" ;;
  PyOk (compose interventions baseline h selected_iv baseline_ldl fl sbp_current sbp_target).

(** The profile the expert branch passes to [estimate_smart_risk]. *)
Definition profile_of_widgets (w : widgets) : profile := {|
  age := w_age w; sex := w_sex w; sbp := w_sbp_current w;
  total_chol := w_total_chol w; hdl := w_hdl w; smoker := w_smoker w;
  diabetes := w_diabetes w; egfr := w_egfr w; crp := w_crp w;
  vasc_count := Z.of_nat (length (filter (fun b => b) (w_vasc w))) |}.

(** Widget values of one expert-mode run (the page's defaults, no box ticked). *)
Definition default_widgets : widgets := {|
  w_age := 60; w_sex := "Male"; w_smoker := false; w_diabetes := false; w_egfr := 80;
  w_total_chol := 5.0; w_hdl := 1.0; w_crp := 2.0; w_vasc := [false; false; false];
  w_sbp_current := 145; w_sbp_target := 120; w_baseline_ldl := 3.5;
  w_checked := fun _ => false; w_checked_new := fun _ => false;
  w_selected_iv := []; w_final_ldl := 2.0 |}.

(** * Properties *)

(** ** Rounding *)

Lemma round_half_even_close (y : R) :
  IZR (round_half_even y) - 1/2 <= y <= IZR (round_half_even y) + 1/2.
Proof.
  unfold round_half_even.
  destruct (base_Int_part y) as [H1 H2].
  set (n := Int_part y) in *.
  destruct (Rcompare_spec (y - IZR n) (1/2)) as [E|E|E].
  - destruct (Z.even n); rewrite ?plus_IZR; lra.
  - split; lra.
  - rewrite plus_IZR; lra.
Qed.

Lemma round_half_even_unique (y : R) (k : Z) :
  IZR k - 1/2 < y < IZR k + 1/2 -> round_half_even y = k.
Proof.
  intros Hk.
  destruct (round_half_even_close y) as [H1 H2].
  assert (A : IZR (round_half_even y) - IZR k < 1) by lra.
  assert (B : IZR k - IZR (round_half_even y) < 1) by lra.
  rewrite <- minus_IZR in A, B.
  apply lt_IZR in A; apply lt_IZR in B. lia.
Qed.

Lemma round_half_even_mono (x y : R) :
  x <= y -> (round_half_even x <= round_half_even y)%Z.
Proof.
  intros Hxy.
  destruct (Z_le_gt_dec (round_half_even x) (round_half_even y)) as [H|H]; [exact H|].
  exfalso.
  destruct (round_half_even_close x) as [Hx1 Hx2].
  destruct (round_half_even_close y) as [Hy1 Hy2].
  assert (Hs : (round_half_even y + 1 <= round_half_even x)%Z) by lia.
  apply IZR_le in Hs. rewrite plus_IZR in Hs.
  assert (Heq : x = y) by lra.
  subst y. lia.
Qed.

Lemma py_round1_unique (x : R) (k : Z) :
  IZR k - 1/2 < x * 10 < IZR k + 1/2 -> py_round1 x = IZR k / 10.
Proof.
  intros H. unfold py_round1. rewrite (round_half_even_unique _ k H). reflexivity.
Qed.

Lemma py_round1_grid (k : Z) : py_round1 (IZR k / 10) = IZR k / 10.
Proof.
  apply py_round1_unique. lra.
Qed.

Lemma py_round1_idem (x : R) : py_round1 (py_round1 x) = py_round1 x.
Proof.
  unfold py_round1 at 2. apply py_round1_grid.
Qed.

Lemma py_round1_mono (x y : R) : x <= y -> py_round1 x <= py_round1 y.
Proof.
  intros H. unfold py_round1.
  assert (Hm := round_half_even_mono (x * 10) (y * 10)).
  assert (x * 10 <= y * 10) by lra.
  apply IZR_le in Hm; [lra | assumption].
Qed.

Lemma py_round1_0 : py_round1 0 = 0.
Proof.
  replace 0 with (IZR 0 / 10) at 1 by lra. rewrite py_round1_grid. lra.
Qed.

Lemma py_round1_range (x : R) : 0 <= x <= 100 -> 0 <= py_round1 x <= 100.
Proof.
  intros H.
  assert (A := py_round1_mono 0 x (proj1 H)).
  assert (B := py_round1_mono x (IZR 1000 / 10) ltac:(lra)).
  rewrite py_round1_0 in A. rewrite py_round1_grid in B. lra.
Qed.

Example b64_literal_0_2 :
  Qeq_bool (b64_round (1 # 5)) (3602879701896397 # 18014398509481984) = true.
Proof. vm_compute. reflexivity. Qed.

Example b64_egfr15_code :
  Qeq_bool (egfr_term_code_b64 15) (5404319552844596 # 18014398509481984) = true.
Proof. vm_compute. reflexivity. Qed.

Example b64_egfr15_spec :
  Qeq_bool (egfr_term_spec_b64 15) (5404319552844595 # 18014398509481984) = true.
Proof. vm_compute. reflexivity. Qed.

(** ** Transcendental bounds *)

Lemma ln_0_9_neg : ln 0.900 < 0.
Proof.
  rewrite <- ln_1. apply ln_increasing; lra.
Qed.

Lemma ln_0_9_bound : ln 0.900 < - 0.05.
Proof.
  assert (H := exp_ineq1_le (- 0.05)).
  rewrite <- (ln_exp (- 0.05)). apply ln_increasing; lra.
Qed.

Lemma exp_1_gt_2 : 2 < exp 1.
Proof.
  assert (H := exp_ineq1 1). lra.
Qed.

Lemma exp_8_gt : 256 < exp 8 /\ 16 < exp 4.
Proof.
  assert (H1 := exp_1_gt_2).
  assert (E2 : exp 2 = exp 1 * exp 1) by (rewrite <- exp_plus; f_equal; lra).
  assert (E4 : exp 4 = exp 2 * exp 2) by (rewrite <- exp_plus; f_equal; lra).
  assert (E8 : exp 8 = exp 4 * exp 4) by (rewrite <- exp_plus; f_equal; lra).
  assert (H2 : 4 < exp 2) by (rewrite E2; nra).
  assert (H4 : 16 < exp 4) by (rewrite E4; nra).
  split; [rewrite E8; nra | exact H4].
Qed.

(** [0.900 ** x] lies strictly between 0 and 1 for a positive [x]. *)
Lemma rpower_0_9_range (x : R) : 0 < x -> 0 < Rpower 0.900 x < 1.
Proof.
  intros Hx. unfold Rpower. split; [apply exp_pos|].
  rewrite <- exp_0. apply exp_increasing.
  assert (H := ln_0_9_neg). nra.
Qed.

(** ** RiskEstimator range *)

Lemma estimate_smart_risk_range (p : profile) :
  0 <= estimate_smart_risk p <= 100.
Proof.
  unfold estimate_smart_risk. cbv zeta.
  match goal with |- context [Rpower 0.900 (exp ?a)] =>
    destruct (rpower_0_9_range (exp a) (exp_pos a)) as [H1 H2] end.
  apply py_round1_range. lra.
Qed.

Lemma estimate_smart_risk_grid (p : profile) :
  py_round1 (estimate_smart_risk p) = estimate_smart_risk p.
Proof.
  unfold estimate_smart_risk. apply py_round1_idem.
Qed.

(** The unrounded 5-year value for a 10-year risk in [[0, 100]]. *)
Lemma risk5_raw_bounds (r : R) :
  0 <= r <= 100 ->
  0 <= (1 - py_pow (1 - r / 100) 0.5) * 100 <= r /\
  (0 < r < 100 -> (1 - py_pow (1 - r / 100) 0.5) * 100 < r).
Proof.
  intros Hr. unfold py_pow.
  destruct (Rlt_dec 0 (1 - r / 100)) as [Hp|Hp].
  - replace 0.5 with (/ 2) by lra.
    rewrite Rpower_sqrt by exact Hp.
    set (x := 1 - r / 100) in *.
    assert (Hs := sqrt_sqrt x (Rlt_le _ _ Hp)).
    assert (Hs0 := sqrt_pos x).
    assert (Hs1 : sqrt x <= 1).
    { rewrite <- sqrt_1. apply sqrt_le_1_alt. unfold x; lra. }
    split.
    + split; [lra|]. unfold x in *; nra.
    + intros Hr'.
      assert (Hs2 : sqrt x < 1).
      { rewrite <- sqrt_1. apply sqrt_lt_1_alt. unfold x; lra. }
      unfold x in *; nra.
  - split; [split; lra | intros; lra].
Qed.

Lemma estimate_smart_risk_profile_max : estimate_smart_risk profile_max = 100.
Proof.
  unfold estimate_smart_risk, profile_max.
  cbn [age sex sbp total_chol hdl smoker diabetes egfr crp vasc_count].
  change (("Male" =? "Male")%string) with true. cbv zeta.
  destruct (Req_dec_T 20 0) as [E|_]; [lra|].
  match goal with |- py_round1 ((1 - Rpower 0.900 (exp ?a)) * 100) = 100 =>
    set (L := a) end.
  assert (Hln : 0 < ln (20 + 1)).
  { rewrite <- ln_1. apply ln_increasing; lra. }
  assert (HL : 8 < L) by (unfold L; lra).
  destruct exp_8_gt as [H8 H4].
  assert (HE : 256 < exp L).
  { assert (exp 8 < exp L) by (apply exp_increasing; exact HL). lra. }
  assert (Hb := ln_0_9_bound).
  assert (Hm : exp L * ln 0.900 < -12) by nra.
  assert (H12 : exp 12 = exp 8 * exp 4) by (rewrite <- exp_plus; f_equal; lra).
  assert (Hinv : exp (-12) * exp 12 = 1)
    by (rewrite <- exp_plus, <- exp_0; f_equal; lra).
  assert (Hlt : exp (exp L * ln 0.900) < exp (-12)) by (apply exp_increasing; exact Hm).
  assert (Hpos := exp_pos (exp L * ln 0.900)).
  assert (G : 4096 < exp 12) by (rewrite H12; nra).
  assert (Hsmall : exp (-12) * 4096 < 1).
  { assert (Hp12 := exp_pos (-12)). nra. }
  unfold Rpower.
  rewrite (py_round1_unique _ 1000); lra.
Qed.

Lemma estimate_5yr_from_10yr_100 : estimate_5yr_from_10yr 100 = 100.
Proof.
  unfold estimate_5yr_from_10yr, py_pow. cbv zeta.
  destruct (Rlt_dec 0 (1 - 100 / 100)) as [H|_]; [lra|].
  replace ((1 - 0) * 100) with (IZR 1000 / 10) by lra.
  rewrite py_round1_grid. lra.
Qed.

Lemma valid_profile_max : valid_profile profile_max.
Proof.
  unfold valid_profile, profile_max; cbn.
  repeat split; try lia; try lra. left; reflexivity.
Qed.

(** ** C2 *)

(** C2 (counterexample): in binary64 the code's eGFR term [0.2*(egfr/10)]
    and the spec's [0.02*eGFR] differ at eGFR = 15
    (0.30000000000000004 against 0.3). *)
Lemma egfr_term_not_bit_identical :
  Qeq_bool (egfr_term_code_b64 15) (egfr_term_spec_b64 15) = false.
Proof. vm_compute. reflexivity. Qed.

(** C2 (amended): in exact real arithmetic [estimate_smart_risk] returns
    [round((1 - 0.900^(e^(lp - 5.8)))*100, 1)] with the spec's [lp]
    ([- 0.02*eGFR], [0.25*ln(crp+1)], which is 0 for a zero CRP). *)
Theorem estimate_smart_risk_spec_real (p : profile) :
  estimate_smart_risk p = estimate_baseline_risk10_spec p.
Proof.
  unfold estimate_smart_risk, estimate_baseline_risk10_spec. cbv zeta.
  replace (0.2 * (IZR (egfr p) / 10)) with (0.02 * IZR (egfr p)) by lra.
  destruct (Req_dec_T (crp p) 0) as [E|E].
  - rewrite E, Rplus_0_l, ln_1. reflexivity.
  - reflexivity.
Qed.

(** ** C4 *)

(** C4 (counterexample): the valid profile [profile_max] has
    [risk10 = 100 > 0] and [risk5 = 100], so [risk5 < risk10] fails. *)
Lemma risk5_not_below_risk10_max :
  valid_profile profile_max /\
  estimate_smart_risk profile_max = 100 /\
  estimate_5yr_from_10yr (estimate_smart_risk profile_max) = 100.
Proof.
  split; [exact valid_profile_max|].
  rewrite estimate_smart_risk_profile_max.
  split; [reflexivity | exact estimate_5yr_from_10yr_100].
Qed.

(** C4 (amended): for every profile the rounded 5-year risk lies in
    [[0, risk10]]; before it is rounded, the 5-year value is strictly
    below [risk10] whenever [0 < risk10 < 100]. *)
Theorem risk5_le_risk10 (p : profile) :
  let risk10 := estimate_smart_risk p in
  0 <= estimate_5yr_from_10yr risk10 <= risk10 /\
  (0 < risk10 < 100 -> (1 - py_pow (1 - risk10 / 100) 0.5) * 100 < risk10).
Proof.
  cbv zeta.
  destruct (estimate_smart_risk_range p) as [H0 H100].
  set (r := estimate_smart_risk p) in *.
  destruct (risk5_raw_bounds r (conj H0 H100)) as [[A B] C].
  split; [|exact C].
  unfold estimate_5yr_from_10yr. cbv zeta.
  assert (M0 := py_round1_mono _ _ A).
  assert (M1 := py_round1_mono _ _ B).
  rewrite py_round1_0 in M0.
  unfold r in M1 at 2. rewrite estimate_smart_risk_grid in M1.
  fold r in M1. lra.
Qed.

(** ** Composition: interventions *)

Lemma apply_interventions_nil (catalog : list intervention) (h : horizon) (r : R) :
  apply_interventions catalog h [] r = r.
Proof.
  unfold apply_interventions. revert r.
  induction catalog as [|iv cat IH]; intros r; [reflexivity|]. apply IH.
Qed.

Lemma apply_interventions_product (catalog : list intervention) (h : horizon)
  (selected : list string) (r : R) :
  apply_interventions catalog h selected r
  = r * fold_right Rmult 1 (map (iv_factor h selected) catalog).
Proof.
  unfold apply_interventions. revert r.
  induction catalog as [|iv cat IH]; intros r; cbn [fold_left fold_right map].
  - ring.
  - rewrite IH. unfold iv_factor.
    destruct (existsb (String.eqb (iv_name iv)) selected); ring.
Qed.

Lemma fold_left_mult_product (A : Type) (g : A -> R) (l : list A) (r : R) :
  fold_left (fun acc a => acc * g a) l r = r * fold_right Rmult 1 (map g l).
Proof.
  revert r. induction l as [|a l IH]; intros r; cbn [fold_left fold_right map].
  - ring.
  - rewrite IH. ring.
Qed.

Lemma product_perm (A : Type) (g : A -> R) (l1 l2 : list A) :
  Permutation l1 l2 -> fold_right Rmult 1 (map g l1) = fold_right Rmult 1 (map g l2).
Proof.
  induction 1; cbn [fold_right map]; try ring.
  - rewrite IHPermutation. reflexivity.
  - congruence.
Qed.

Lemma existsb_eqb_In (x : string) (l : list string) :
  existsb (String.eqb x) l = true <-> In x l.
Proof.
  rewrite existsb_exists. split.
  - intros [y [Hy E]]. apply String.eqb_eq in E. subst. exact Hy.
  - intros H. exists x. split; [exact H | apply String.eqb_refl].
Qed.

Lemma drop_name_In (x s : string) (l : list string) :
  In s (drop_name x l) <-> In s l /\ s <> x.
Proof.
  unfold drop_name. rewrite filter_In, negb_true_iff, String.eqb_neq. tauto.
Qed.

Lemma perm_drop_name (x : string) (l : list string) :
  NoDup l -> In x l -> Permutation l (x :: drop_name x l).
Proof.
  induction l as [|y l IH]; intros Hnd Hin; [destruct Hin|].
  inversion Hnd as [|? ? Hy Hl]; subst.
  unfold drop_name; cbn [filter]. fold (drop_name x l).
  destruct (String.eqb_spec y x) as [E|E]; cbn [negb].
  - subst y. apply perm_skip.
    assert (Hid : drop_name x l = l).
    { unfold drop_name. apply forallb_filter_id, forallb_forall.
      intros s Hs. apply negb_true_iff, String.eqb_neq. intros ->. contradiction. }
    rewrite Hid. reflexivity.
  - destruct Hin as [Hin|Hin]; [congruence|].
    eapply perm_trans; [apply perm_skip, IH; assumption|]. apply perm_swap.
Qed.

Lemma existsb_drop_name (x y : string) (l : list string) :
  x <> y -> existsb (String.eqb x) (drop_name y l) = existsb (String.eqb x) l.
Proof.
  intros Hxy. apply Bool.eq_iff_eq_true.
  rewrite !existsb_eqb_In, drop_name_In. tauto.
Qed.

Lemma catalog_product_selection (catalog : list intervention) (h : horizon)
  (selected : list string) :
  NoDup (map iv_name catalog) -> NoDup selected -> incl selected (map iv_name catalog) ->
  fold_right Rmult 1 (map (iv_factor h selected) catalog)
  = fold_right Rmult 1 (map (fun s => 1 - spec_arr catalog h s / 100) selected).
Proof.
  revert selected.
  induction catalog as [|iv cat IH]; intros sel Hcat Hsel Hin.
  - destruct sel as [|s sel]; [reflexivity|].
    exfalso. apply (Hin s). left. reflexivity.
  - cbn [map] in Hcat. inversion Hcat as [|? ? Hiv Hcat']; subst.
    assert (Hspec : forall s, s <> iv_name iv ->
                    spec_arr (iv :: cat) h s = spec_arr cat h s).
    { intros s Hs. unfold spec_arr, lookup_iv. cbn [find].
      destruct (String.eqb_spec (iv_name iv) s) as [E|E]; [congruence|reflexivity]. }
    assert (Hhead : spec_arr (iv :: cat) h (iv_name iv) = iv_arr h iv).
    { unfold spec_arr, lookup_iv. cbn [find]. rewrite String.eqb_refl.
      destruct h; reflexivity. }
    assert (Hname : forall iv', In iv' cat -> iv_name iv' <> iv_name iv).
    { intros iv' Hiv' E. apply Hiv. rewrite <- E. apply in_map. exact Hiv'. }
    cbn [map fold_right]. unfold iv_factor at 1.
    destruct (existsb (String.eqb (iv_name iv)) sel) eqn:Hm.
    + apply existsb_eqb_In in Hm.
      rewrite (product_perm _ _ _ _ (perm_drop_name _ _ Hsel Hm)).
      cbn [map fold_right]. rewrite Hhead. f_equal.
      rewrite (map_ext_in (fun s => 1 - spec_arr (iv :: cat) h s / 100)
                          (fun s => 1 - spec_arr cat h s / 100)).
      2: { intros s Hs. apply drop_name_In in Hs. rewrite Hspec by tauto. reflexivity. }
      rewrite (map_ext_in (iv_factor h sel) (iv_factor h (drop_name (iv_name iv) sel))).
      2: { intros iv' Hiv'. unfold iv_factor.
           rewrite existsb_drop_name by (apply Hname; exact Hiv'). reflexivity. }
      apply IH; [exact Hcat' | apply NoDup_filter; exact Hsel |].
      intros s Hs. apply drop_name_In in Hs. destruct Hs as [Hs Hne].
      destruct (Hin s Hs) as [E|E]; [congruence | exact E].
    + rewrite Rmult_1_l.
      assert (Hnot : ~ In (iv_name iv) sel).
      { intros H. apply existsb_eqb_In in H. congruence. }
      rewrite (map_ext_in (fun s => 1 - spec_arr (iv :: cat) h s / 100)
                          (fun s => 1 - spec_arr cat h s / 100)).
      2: { intros s Hs. rewrite Hspec; [reflexivity|]. intros ->. contradiction. }
      apply IH; [exact Hcat' | exact Hsel |].
      intros s Hs. destruct (Hin s Hs) as [E|E]; [subst; contradiction | exact E].
Qed.

(** ** C3 *)

(** C3: for a catalog with unique names and a selection of distinct catalog
    names, [final_risk] and [arr] are those of the spec's pipeline: one
    factor [1 - arr/100] per selected name ([arr_5yr] for the 5-year
    horizon, [arr_lifetime] for the 10-year and lifetime horizons), then
    the LDL and BP factors, [finalRisk = round(r*100, 1)] and
    [arr = round(baselineRisk - finalRisk, 1)]. *)
Theorem compose_selected_factors (catalog : list intervention) (b : R) (h : horizon)
  (selected : list string) (bl fl : R) (cur tgt : Z) :
  NoDup (map iv_name catalog) -> NoDup selected -> incl selected (map iv_name catalog) ->
  (final_risk (compose catalog b h selected bl fl cur tgt),
   arr (compose catalog b h selected bl fl cur tgt))
  = compose_spec catalog b h selected bl fl cur tgt.
Proof.
  intros Hcat Hsel Hin.
  unfold compose, compose_spec, composed_remaining, ldl_step, bp_step, ldl_rrr, bp_rrr.
  cbn [final_risk arr].
  rewrite apply_interventions_product,
    (fold_left_mult_product _ (fun s => 1 - spec_arr catalog h s / 100)),
    catalog_product_selection by assumption.
  rewrite minus_IZR. reflexivity.
Qed.

Lemma compose_selected_factors_witness :
  NoDup (map iv_name interventions) /\
  NoDup ["Empagliflozin"%string; "Smoking cessation"%string] /\
  incl ["Empagliflozin"%string; "Smoking cessation"%string] (map iv_name interventions) /\
  (final_risk (compose interventions 20 H5yr
                 ["Empagliflozin"%string; "Smoking cessation"%string] 3.5 2.0 145 120),
   arr (compose interventions 20 H5yr
          ["Empagliflozin"%string; "Smoking cessation"%string] 3.5 2.0 145 120))
  = compose_spec interventions 20 H5yr
      ["Empagliflozin"%string; "Smoking cessation"%string] 3.5 2.0 145 120.
Proof.
  assert (H1 : NoDup (map iv_name interventions)).
  { cbn. repeat constructor; cbn; intros H; repeat destruct H as [H|H];
      try discriminate H; exact H. }
  assert (H2 : NoDup ["Empagliflozin"%string; "Smoking cessation"%string]).
  { repeat constructor; cbn; intros H; repeat destruct H as [H|H];
      try discriminate H; exact H. }
  assert (H3 : incl ["Empagliflozin"%string; "Smoking cessation"%string]
                 (map iv_name interventions)).
  { intros s Hs. cbn in Hs |- *.
    destruct Hs as [<-|[<-|[]]]; [do 5 right; left | left]; reflexivity. }
  split; [exact H1|]. split; [exact H2|]. split; [exact H3|].
  exact (compose_selected_factors interventions 20 H5yr _ 3.5 2.0 145 120 H1 H2 H3).
Defined.

(** ** Composition: LDL and BP steps, pipeline baselines *)

Lemma ldl_rrr_same (x : R) : ldl_rrr x x = 0.
Proof.
  unfold ldl_rrr. rewrite Rmin_left; lra.
Qed.

Lemma bp_rrr_same (c : Z) : bp_rrr c c = 0.
Proof.
  unfold bp_rrr. rewrite Z.sub_diag. rewrite Rmin_left; lra.
Qed.

Lemma estimate_5yr_from_10yr_bounds (r : R) :
  0 <= r <= 100 -> py_round1 r = r -> 0 <= estimate_5yr_from_10yr r <= r.
Proof.
  intros Hr Hg.
  destruct (risk5_raw_bounds r Hr) as [[A B] _].
  unfold estimate_5yr_from_10yr. cbv zeta.
  assert (M0 := py_round1_mono _ _ A).
  assert (M1 := py_round1_mono _ _ B).
  rewrite py_round1_0 in M0. rewrite Hg in M1. lra.
Qed.

Lemma baseline_of_profile_grid (p : profile) (h : horizon) :
  py_round1 (baseline_of_profile p h) = baseline_of_profile p h.
Proof.
  unfold baseline_of_profile, baseline_risk.
  destruct h; [unfold estimate_5yr_from_10yr; apply py_round1_idem | ..];
    apply estimate_smart_risk_grid.
Qed.

Lemma baseline_of_profile_nonneg (p : profile) (h : horizon) :
  0 <= baseline_of_profile p h.
Proof.
  unfold baseline_of_profile, baseline_risk.
  destruct (estimate_smart_risk_range p) as [A B].
  destruct h; try exact A.
  apply (estimate_5yr_from_10yr_bounds _ (conj A B) (estimate_smart_risk_grid p)).
Qed.

Lemma fold_left_snd (A : Type) (F : R -> R -> R) (l : list (A * R)) (a : R) :
  fold_left (fun x e => F x (snd e)) l a = fold_left F (map snd l) a.
Proof.
  revert a. induction l as [|e l IH]; intros a; [reflexivity|]. apply IH.
Qed.

Lemma no_therapy_selected (catalog : list (string * R)) :
  select_on_therapy catalog (fun _ => false) = [] /\
  select_additional catalog [] (fun _ => false) = [].
Proof.
  unfold select_on_therapy, select_additional.
  induction catalog as [|e cat [IH1 IH2]]; [split; reflexivity|].
  cbn [filter]. rewrite andb_false_r. split; assumption.
Qed.

Lemma derived_final_ldl_no_therapy (catalog : list (string * R)) (bl : R) :
  derived_final_ldl catalog bl (fun _ => false) (fun _ => false) = Rmax bl 1.
Proof.
  unfold derived_final_ldl. cbv zeta.
  destruct (no_therapy_selected catalog) as [E1 E2].
  rewrite E1, E2. unfold final_ldl, adjusted_ldl. cbn [fold_left].
  rewrite Rmax_left by apply Rmax_r.
  unfold Rmax. destruct (Rle_dec bl 1.0), (Rle_dec bl 1); lra.
Qed.

(** ** C5 *)

(** Identity case for any baseline with at most one decimal. *)
Lemma compose_identity_grid (catalog : list intervention) (b : R) (h : horizon)
  (bl : R) (cur : Z) :
  py_round1 b = b ->
  compose catalog b h [] bl bl cur cur = {| final_risk := b; arr := 0; rrr := 0 |}.
Proof.
  intros Hb. unfold compose, composed_remaining. rewrite apply_interventions_nil.
  unfold ldl_step, bp_step. rewrite ldl_rrr_same, bp_rrr_same.
  replace (b / 100 * (1 - 0 / 100) * (1 - 0 / 100) * 100) with b by field.
  rewrite Hb. replace (b - b) with 0 by ring. rewrite py_round1_0.
  destruct (Req_dec_T b 0) as [E|E]; [reflexivity|].
  replace (0 / b * 100) with 0 by (field; exact E). rewrite py_round1_0. reflexivity.
Qed.

(** C5: for every baseline risk the page computes (the estimator's
    rounded 10-year risk, or its rounded 5-year conversion, for any
    profile and horizon), no intervention, [finalLdl = baselineLdl] and
    [sbpTarget = sbpCurrent] give [finalRisk = baselineRisk], [arr = 0]
    and [rrr = 0]. *)
Theorem compose_identity (catalog : list intervention) (p : profile) (h : horizon)
  (bl : R) (cur : Z) :
  let b := baseline_of_profile p h in
  compose catalog b h [] bl bl cur cur = {| final_risk := b; arr := 0; rrr := 0 |}.
Proof.
  cbv zeta. apply compose_identity_grid, baseline_of_profile_grid.
Qed.

(** ** C6 *)

(** C6: the LDL step multiplies by [1 - min(22*drop, 35)/100] with no
    clamp of a negative drop (which raises the remaining risk), and
    [rrrLdl = 35] for every drop of at least 35/22 mmol/L. *)
Theorem ldl_step_formula_and_cap (bl fl r : R) :
  ldl_step bl fl r = r * (1 - Rmin (22 * (bl - fl)) 35 / 100) /\
  (bl - fl < 0 -> 0 < r -> r < ldl_step bl fl r) /\
  (35 / 22 <= bl - fl -> ldl_rrr bl fl = 35).
Proof.
  split; [reflexivity|]. split.
  - intros Hd Hr. unfold ldl_step, ldl_rrr. rewrite Rmin_left by lra. nra.
  - intros Hd. unfold ldl_rrr. rewrite Rmin_right; lra.
Qed.

(** ** C7 *)

(** C7: the BP step uses [min(15*((sbpCurrent - sbpTarget)/10), 20)], and
    for the integer SBP values the inputs take, a gap of at least 13.33
    mmHg (hence at least 14) gives exactly 20. *)
Theorem bp_rrr_cap (cur tgt : Z) :
  13.33 <= IZR cur - IZR tgt ->
  bp_rrr cur tgt = Rmin (15 * ((IZR cur - IZR tgt) / 10)) 20 /\ bp_rrr cur tgt = 20.
Proof.
  intros Hg. unfold bp_rrr. rewrite minus_IZR. split; [reflexivity|].
  rewrite <- minus_IZR in Hg |- *.
  assert (H13 : (13 < cur - tgt)%Z) by (apply lt_IZR; lra).
  assert (H14 : 14 <= IZR (cur - tgt)) by (apply IZR_le; lia).
  rewrite Rmin_right; lra.
Qed.

Lemma bp_rrr_cap_witness :
  13.33 <= IZR 145 - IZR 131 /\
  bp_rrr 145 131 = Rmin (15 * ((IZR 145 - IZR 131) / 10)) 20 /\ bp_rrr 145 131 = 20.
Proof.
  assert (H : 13.33 <= IZR 145 - IZR 131) by lra.
  split; [exact H | exact (bp_rrr_cap 145 131 H)].
Defined.

(** ** C8 *)

(** C8: for every baseline LDL and every checkbox state, the derived
    [final_ldl] is at least 1.0 and is the spec's two-stage stack over the
    potencies of the active and of the newly added therapies. *)
Theorem derived_final_ldl_two_stage (catalog : list (string * R)) (bl : R)
  (checked checked_new : string -> bool) :
  let on := select_on_therapy catalog checked in
  let add := select_additional catalog on checked_new in
  1.0 <= derived_final_ldl catalog bl checked checked_new /\
  derived_final_ldl catalog bl checked checked_new
  = final_ldl_spec bl (map snd on) (map snd add).
Proof.
  cbv zeta. unfold derived_final_ldl, final_ldl, adjusted_ldl, final_ldl_spec. cbv zeta.
  split; [apply Rmax_r|].
  rewrite (fold_left_snd _ (fun l p => l * (1 - p / 100))),
    (fold_left_snd _ (fun l p => l * (1 - p / 100 * 0.5))).
  reflexivity.
Qed.

(** ** C9 *)

(** C9: every baseline risk the page computes (for any profile and
    horizon) is >= 0, and on it [rrr] is [round(arr/baselineRisk*100, 1)]
    when [baselineRisk > 0] and the defined value 0 otherwise (i.e. for
    [baselineRisk = 0], the only baseline <= 0 that arises), with no
    division in that branch and no error. *)
Theorem compose_rrr_branches (catalog : list intervention) (h : horizon)
  (selected : list string) (bl fl : R) (cur tgt : Z) (p : profile) :
  let b := baseline_of_profile p h in
  let res := compose catalog b h selected bl fl cur tgt in
  0 <= b /\ rrr res = if Rlt_dec 0 b then py_round1 (arr res / b * 100) else 0.
Proof.
  cbv zeta.
  assert (H0 := baseline_of_profile_nonneg p h).
  set (b := baseline_of_profile p h) in *.
  split; [exact H0|].
  unfold compose. cbn [rrr arr].
  destruct (Req_dec_T b 0) as [E|E]; destruct (Rlt_dec 0 b); try reflexivity; lra.
Qed.

(** ** C10 *)

(** C10 (counterexample): with no therapy and baseline LDL 0.9 the derived
    final LDL is 1.0, yet for the baseline risk 1.0 the composed final risk
    is 1.0 (1.022 rounded), not above the baseline. *)
Lemma low_ldl_final_risk_not_above :
  derived_final_ldl ldl_therapies 0.9 (fun _ => false) (fun _ => false) = 1 /\
  final_risk (compose interventions 1 H10yr [] 0.9 1 120 120) = 1.
Proof.
  split.
  - rewrite derived_final_ldl_no_therapy. apply Rmax_right. lra.
  - unfold compose, composed_remaining. rewrite apply_interventions_nil.
    unfold ldl_step, bp_step. rewrite bp_rrr_same. cbn [final_risk].
    unfold ldl_rrr. rewrite Rmin_left by lra.
    rewrite (py_round1_unique _ 10); lra.
Qed.

(** C10 (amended): with no active and no new therapy the derived final LDL
    is [max(baselineLdl, 1.0)]; for [baselineLdl < 1.0] it exceeds the
    baseline, the LDL drop and [rrrLdl] are negative, the LDL factor raises
    every positive remaining risk, and with no other intervention and no SBP
    change [finalRisk >= baselineRisk] for every one-decimal baseline >= 0
    (the increase may vanish in the rounding). *)
Theorem no_therapy_ldl_floor (ldl_catalog : list (string * R)) (bl : R) :
  let fl := derived_final_ldl ldl_catalog bl (fun _ => false) (fun _ => false) in
  fl = Rmax bl 1 /\
  (bl < 1 ->
   bl < fl /\ bl - fl < 0 /\ ldl_rrr bl fl < 0 /\
   (forall r, 0 < r -> r < ldl_step bl fl r) /\
   (forall catalog b h cur, py_round1 b = b -> 0 <= b ->
      b <= final_risk (compose catalog b h [] bl fl cur cur))).
Proof.
  cbv zeta. rewrite derived_final_ldl_no_therapy.
  split; [reflexivity|]. intros Hbl.
  rewrite Rmax_right by lra.
  assert (Hr : ldl_rrr bl 1 = 22 * (bl - 1)).
  { unfold ldl_rrr. apply Rmin_left. lra. }
  split; [lra|]. split; [lra|]. split; [rewrite Hr; lra|]. split.
  - intros r Hpos. unfold ldl_step. rewrite Hr. nra.
  - intros catalog b h cur Hg Hb.
    unfold compose, composed_remaining. rewrite apply_interventions_nil.
    unfold ldl_step, bp_step. rewrite bp_rrr_same, Hr. cbn [final_risk].
    rewrite <- Hg at 1. apply py_round1_mono. nra.
Qed.

(** * Further properties of the page script *)

(** ** Input branches and the calculation *)

Lemma patient_mode_name_error_helper (w : widgets) (h : horizon) :
  calculate h (page_env true w) = PyNameError "sex"%string.
Proof. reflexivity. Qed.

(** The patient-friendly branch never binds [sex], so every run in that
    mode stops at line 111 with [NameError: sex], whatever the widgets. *)
Theorem patient_mode_name_error (w : widgets) (h : horizon) :
  calculate h (page_env true w) = PyNameError "sex"%string.
Proof. reflexivity. Qed.

(** The warning [final_ldl < 1.0] (line 145) is never shown: whenever the
    run gets past the calculation, the [final_ldl] it holds is >= 1.0. *)
Theorem final_ldl_warning_unreachable (patient_mode : bool) (w : widgets) (h : horizon)
  (res : risk_result) :
  calculate h (page_env patient_mode w) = PyOk res ->
  exists fl, read_num (page_env patient_mode w) "final_ldl" = PyOk fl /\ 1.0 <= fl.
Proof.
  destruct patient_mode; intros Hc.
  - rewrite patient_mode_name_error_helper in Hc. discriminate Hc.
  - exists (final_ldl (adjusted_ldl (w_baseline_ldl w)
                        (select_on_therapy ldl_therapies (w_checked w)))
                      (select_additional ldl_therapies
                        (select_on_therapy ldl_therapies (w_checked w)) (w_checked_new w))).
    split; [reflexivity | apply Rmax_r].
Qed.

Lemma final_ldl_warning_unreachable_witness :
  calculate H10yr (page_env false default_widgets)
    = PyOk (compose interventions (baseline_of_profile (profile_of_widgets default_widgets) H10yr)
              H10yr [] 3.5 (derived_final_ldl ldl_therapies 3.5 (fun _ => false) (fun _ => false))
              145 120) /\
  exists fl, read_num (page_env false default_widgets) "final_ldl" = PyOk fl /\ 1.0 <= fl.
Proof.
  assert (H : calculate H10yr (page_env false default_widgets)
    = PyOk (compose interventions (baseline_of_profile (profile_of_widgets default_widgets) H10yr)
              H10yr [] 3.5 (derived_final_ldl ldl_therapies 3.5 (fun _ => false) (fun _ => false))
              145 120)) by reflexivity.
  split; [exact H | exact (final_ldl_warning_unreachable false default_widgets H10yr _ H)].
Defined.

(** ** LDL-C therapy stack *)

Lemma fold_left_mult_shrink (A : Type) (f : A -> R) (l : list A) (x : R) :
  0 <= x -> Forall (fun a => 0 <= f a <= 1) l ->
  0 <= fold_left (fun acc a => acc * f a) l x <= x.
Proof.
  revert x. induction l as [|a l IH]; intros x Hx Hl; cbn [fold_left]; [lra|].
  inversion Hl as [|? ? Ha Hl']; subst.
  assert (H1 : 0 <= x * f a <= x) by nra.
  destruct (IH (x * f a) (proj1 H1) Hl'). lra.
Qed.

(** With potencies in [[0, 100]] (as in [ldl_therapies]) and a
    non-negative baseline, the stack never raises LDL-C: the adjusted
    value is at most [max(baseline_ldl, 1.0)] and the final value at most
    the adjusted one. *)
Theorem ldl_stack_never_raises (catalog : list (string * R)) (bl : R)
  (checked checked_new : string -> bool) :
  Forall (fun e => 0 <= snd e <= 100) catalog -> 0 <= bl ->
  let on := select_on_therapy catalog checked in
  let add := select_additional catalog on checked_new in
  adjusted_ldl bl on <= Rmax bl 1.0 /\
  final_ldl (adjusted_ldl bl on) add <= adjusted_ldl bl on.
Proof.
  intros Hc Hbl. cbv zeta.
  set (on := select_on_therapy catalog checked).
  set (add := select_additional catalog on checked_new).
  assert (Hon : Forall (fun e => 0 <= snd e <= 100) on)
    by (apply Forall_forall; intros e He; apply filter_In in He as [He _];
        exact (proj1 (Forall_forall _ _) Hc e He)).
  assert (Had : Forall (fun e => 0 <= snd e <= 100) add)
    by (apply Forall_forall; intros e He; apply filter_In in He as [He _];
        exact (proj1 (Forall_forall _ _) Hc e He)).
  unfold adjusted_ldl, final_ldl.
  destruct (fold_left_mult_shrink _ (fun e => 1 - snd e / 100) on bl Hbl)
    as [A1 A2].
  { eapply Forall_impl; [|exact Hon]. intros e He. cbn beta. lra. }
  set (adj := Rmax (fold_left (fun l e => l * (1 - snd e / 100)) on bl) 1.0).
  assert (Hadj : 1.0 <= adj) by apply Rmax_r.
  destruct (fold_left_mult_shrink _ (fun e => 1 - snd e / 100 * 0.5) add adj ltac:(lra))
    as [B1 B2].
  { eapply Forall_impl; [|exact Had]. intros e He. cbn beta. lra. }
  split.
  - unfold adj. apply Rle_max_compat_r. exact A2.
  - apply Rmax_lub; lra.
Qed.

Lemma ldl_stack_never_raises_witness :
  Forall (fun e => 0 <= snd e <= 100) ldl_therapies /\ 0 <= 3.5 /\
  adjusted_ldl 3.5 (select_on_therapy ldl_therapies (fun d => String.eqb d "Ezetimibe"))
    <= Rmax 3.5 1.0 /\
  final_ldl (adjusted_ldl 3.5 (select_on_therapy ldl_therapies (fun d => String.eqb d "Ezetimibe")))
    (select_additional ldl_therapies
       (select_on_therapy ldl_therapies (fun d => String.eqb d "Ezetimibe")) (fun _ => true))
  <= adjusted_ldl 3.5 (select_on_therapy ldl_therapies (fun d => String.eqb d "Ezetimibe")).
Proof.
  assert (Hc : Forall (fun e => 0 <= snd e <= 100) ldl_therapies)
    by (repeat constructor; cbn; lra).
  assert (Hb : 0 <= 3.5) by lra.
  destruct (ldl_stack_never_raises ldl_therapies 3.5 (fun d => String.eqb d "Ezetimibe")
              (fun _ => true) Hc Hb) as [A B].
  exact (conj Hc (conj Hb (conj A B))).
Defined.

(** ** RiskEstimator monotonicity *)

Lemma exp_le_mono (x y : R) : x <= y -> exp x <= exp y.
Proof.
  intros H. destruct (Rle_lt_or_eq_dec x y H) as [Hl | ->].
  - left. apply exp_increasing. exact Hl.
  - lra.
Qed.

Lemma ln_le_mono (x y : R) : 0 < x -> x <= y -> ln x <= ln y.
Proof.
  intros Hx H. destruct (Rle_lt_or_eq_dec x y H) as [Hl | ->].
  - left. apply ln_increasing; assumption.
  - lra.
Qed.

Lemma py_pow_half (x : R) : 0 <= x -> py_pow x 0.5 = sqrt x.
Proof.
  intros Hx. unfold py_pow. destruct (Rlt_dec 0 x) as [H|H].
  - replace 0.5 with (/ 2) by lra. apply Rpower_sqrt. exact H.
  - replace x with 0 by lra. rewrite sqrt_0. reflexivity.
Qed.

(** [estimate_5yr_from_10yr] maps 0 to 0 and 100 to 100 and is
    non-decreasing on [[0, 100]]. *)
Theorem estimate_5yr_monotone (r1 r2 : R) :
  0 <= r1 -> r1 <= r2 -> r2 <= 100 ->
  estimate_5yr_from_10yr 0 = 0 /\ estimate_5yr_from_10yr 100 = 100 /\
  estimate_5yr_from_10yr r1 <= estimate_5yr_from_10yr r2.
Proof.
  intros H0 H12 H100.
  split; [|split; [exact estimate_5yr_from_10yr_100|]].
  - unfold estimate_5yr_from_10yr. cbv zeta.
    rewrite py_pow_half by lra.
    replace (1 - 0 / 100) with 1 by lra. rewrite sqrt_1.
    replace ((1 - 1) * 100) with 0 by lra. apply py_round1_0.
  - unfold estimate_5yr_from_10yr. cbv zeta. apply py_round1_mono.
    rewrite !py_pow_half by lra.
    assert (sqrt (1 - r2 / 100) <= sqrt (1 - r1 / 100)) by (apply sqrt_le_1_alt; lra).
    lra.
Qed.

Lemma estimate_5yr_monotone_witness :
  0 <= 12.5 /\ 12.5 <= 40 /\ 40 <= 100 /\
  estimate_5yr_from_10yr 0 = 0 /\ estimate_5yr_from_10yr 100 = 100 /\
  estimate_5yr_from_10yr 12.5 <= estimate_5yr_from_10yr 40.
Proof.
  assert (A : 0 <= 12.5) by lra. assert (B : 12.5 <= 40) by lra.
  assert (C : 40 <= 100) by lra.
  exact (conj A (conj B (conj C (estimate_5yr_monotone 12.5 40 A B C)))).
Defined.

Lemma estimate_smart_risk_lp (p : profile) :
  estimate_smart_risk p = py_round1 ((1 - Rpower 0.900 (exp (lp_of p - 5.8))) * 100).
Proof. reflexivity. Qed.

Lemma risk_of_lp_mono (x y : R) :
  x <= y ->
  (1 - Rpower 0.900 (exp (x - 5.8))) * 100 <= (1 - Rpower 0.900 (exp (y - 5.8))) * 100.
Proof.
  intros H. unfold Rpower.
  assert (He : exp (x - 5.8) <= exp (y - 5.8)) by (apply exp_le_mono; lra).
  assert (Hl := ln_0_9_neg).
  assert (exp (exp (y - 5.8) * ln 0.900) <= exp (exp (x - 5.8) * ln 0.900))
    by (apply exp_le_mono; nra).
  lra.
Qed.

Lemma crp_log_nonneg (c : R) :
  0 <= c -> (if Req_dec_T c 0 then 0 else ln (c + 1)) = ln (c + 1).
Proof.
  intros Hc. destruct (Req_dec_T c 0) as [->|_]; [|reflexivity].
  rewrite Rplus_0_l, ln_1. reflexivity.
Qed.

(** The 10-year risk never decreases when a covariate moves in its risk
    direction: older, higher SBP, higher total cholesterol, lower HDL,
    smoking, diabetes, lower eGFR, higher CRP (from a non-negative value),
    more vascular beds, with the same sex. *)
Theorem estimate_smart_risk_monotone (p q : profile) :
  (age p <= age q)%Z -> sex p = sex q -> (sbp p <= sbp q)%Z ->
  total_chol p <= total_chol q -> hdl q <= hdl p ->
  (smoker p = true -> smoker q = true) -> (diabetes p = true -> diabetes q = true) ->
  (egfr q <= egfr p)%Z -> 0 <= crp p <= crp q -> (vasc_count p <= vasc_count q)%Z ->
  estimate_smart_risk p <= estimate_smart_risk q.
Proof.
  intros Ha Hs Hsb Htc Hh Hsm Hdb He Hc Hv.
  rewrite !estimate_smart_risk_lp. apply py_round1_mono, risk_of_lp_mono.
  unfold lp_of. rewrite Hs, !crp_log_nonneg by lra.
  apply IZR_le in Ha, Hsb, He, Hv.
  assert (Hln : ln (crp p + 1) <= ln (crp q + 1)) by (apply ln_le_mono; lra).
  assert (Hsm' : (if smoker p then 1 else 0) <= (if smoker q then 1 else 0))
    by (destruct (smoker p), (smoker q); try lra; discriminate (Hsm eq_refl)).
  assert (Hdb' : (if diabetes p then 1 else 0) <= (if diabetes q then 1 else 0))
    by (destruct (diabetes p), (diabetes q); try lra; discriminate (Hdb eq_refl)).
  lra.
Qed.

Lemma estimate_smart_risk_monotone_witness :
  estimate_smart_risk (profile_of_widgets default_widgets) <= estimate_smart_risk profile_max.
Proof.
  apply estimate_smart_risk_monotone; cbn; try lia; try lra;
    try reflexivity; intros _; reflexivity.
Defined.

(** ** ReductionComposer bounds *)

Lemma iv_factor_bounds (h : horizon) (sel : list string) (iv : intervention) :
  0 <= iv_arr h iv <= 100 -> 0 <= iv_factor h sel iv <= 1.
Proof.
  intros H. unfold iv_factor. destruct (existsb _ sel); lra.
Qed.

Lemma iv_factor_incl (h : horizon) (sel1 sel2 : list string) (iv : intervention) :
  0 <= iv_arr h iv <= 100 -> incl sel1 sel2 -> iv_factor h sel2 iv <= iv_factor h sel1 iv.
Proof.
  intros H Hi. unfold iv_factor.
  destruct (existsb (String.eqb (iv_name iv)) sel1) eqn:E1.
  - apply existsb_eqb_In, Hi, existsb_eqb_In in E1. rewrite E1. lra.
  - destruct (existsb _ sel2); lra.
Qed.

Lemma iv_product_bounds (catalog : list intervention) (h : horizon) (sel1 sel2 : list string) :
  Forall (fun iv => 0 <= iv_arr h iv <= 100) catalog -> incl sel1 sel2 ->
  0 <= fold_right Rmult 1 (map (iv_factor h sel2) catalog)
    <= fold_right Rmult 1 (map (iv_factor h sel1) catalog) /\
  fold_right Rmult 1 (map (iv_factor h sel1) catalog) <= 1.
Proof.
  intros Hc Hi. induction Hc as [|iv cat Hiv Hc IH]; cbn [map fold_right]; [lra|].
  destruct IH as [[P0 P1] P2].
  destruct (iv_factor_bounds h sel1 iv Hiv) as [F1 F1'].
  destruct (iv_factor_bounds h sel2 iv Hiv) as [F2 F2'].
  assert (F := iv_factor_incl h sel1 sel2 iv Hiv Hi).
  split; [split|]; nra.
Qed.

(** With every catalog ARR in [[0, 100]] (as in [interventions]), the
    intervention step keeps a non-negative remaining risk between 0 and
    its input, and selecting more interventions never raises it. *)
Theorem more_interventions_never_raise (catalog : list intervention) (h : horizon)
  (sel1 sel2 : list string) (r : R) :
  Forall (fun iv => 0 <= iv_arr h iv <= 100) catalog -> incl sel1 sel2 -> 0 <= r ->
  0 <= apply_interventions catalog h sel2 r <= apply_interventions catalog h sel1 r /\
  apply_interventions catalog h sel1 r <= r.
Proof.
  intros Hc Hi Hr. rewrite !apply_interventions_product.
  destruct (iv_product_bounds catalog h sel1 sel2 Hc Hi) as [[A B] C].
  split; [split|]; nra.
Qed.

Lemma interventions_arr_range (h : horizon) :
  Forall (fun iv => 0 <= iv_arr h iv <= 100) interventions.
Proof.
  destruct h; repeat constructor; cbn; lra.
Qed.

Lemma more_interventions_never_raise_witness :
  Forall (fun iv => 0 <= iv_arr H5yr iv <= 100) interventions /\
  incl ["Empagliflozin"%string] ["Empagliflozin"%string; "Physical activity"%string] /\
  0 <= 0.2 /\
  0 <= apply_interventions interventions H5yr
         ["Empagliflozin"%string; "Physical activity"%string] 0.2
    <= apply_interventions interventions H5yr ["Empagliflozin"%string] 0.2 /\
  apply_interventions interventions H5yr ["Empagliflozin"%string] 0.2 <= 0.2.
Proof.
  assert (Hc : Forall (fun iv => 0 <= iv_arr H5yr iv <= 100) interventions)
    by (repeat constructor; cbn; lra).
  assert (Hi : incl ["Empagliflozin"%string] ["Empagliflozin"%string; "Physical activity"%string])
    by (intros s [<-|[]]; left; reflexivity).
  assert (Hr : 0 <= 0.2) by lra.
  destruct (more_interventions_never_raise interventions H5yr _ _ 0.2 Hc Hi Hr) as [A B].
  exact (conj Hc (conj Hi (conj Hr (conj A B)))).
Defined.

Lemma ldl_rrr_le_35 (bl fl : R) : ldl_rrr bl fl <= 35.
Proof. unfold ldl_rrr. apply Rmin_r. Qed.

Lemma bp_rrr_le_20 (cur tgt : Z) : bp_rrr cur tgt <= 20.
Proof. unfold bp_rrr. apply Rmin_r. Qed.

(** Each treatment step removes at most its cap: the LDL step keeps at
    least 65% and the BP step at least 80% of a non-negative remaining
    risk, and a non-improving BP plan (target >= current, the case the
    page only warns about) never lowers it. *)
Theorem treatment_steps_capped (bl fl : R) (cur tgt : Z) (r : R) :
  0 <= r ->
  0.65 * r <= ldl_step bl fl r /\ 0.8 * r <= bp_step cur tgt r /\
  ((cur <= tgt)%Z -> r <= bp_step cur tgt r).
Proof.
  intros Hr. assert (L := ldl_rrr_le_35 bl fl). assert (B := bp_rrr_le_20 cur tgt).
  unfold ldl_step, bp_step. split; [nra|]. split; [nra|].
  intros Hct. unfold bp_rrr.
  assert (Hg : IZR (cur - tgt) <= 0) by (apply IZR_le; lia).
  rewrite Rmin_left by lra. nra.
Qed.

Lemma treatment_steps_capped_witness :
  0 <= 0.3 /\
  0.65 * 0.3 <= ldl_step 3.5 1.0 0.3 /\ 0.8 * 0.3 <= bp_step 180 120 0.3 /\
  ((180 <= 120)%Z -> 0.3 <= bp_step 180 120 0.3).
Proof.
  assert (H : 0 <= 0.3) by lra.
  exact (conj H (treatment_steps_capped 3.5 1.0 180 120 0.3 H)).
Defined.

Lemma ldl_rrr_nonneg (bl fl : R) : fl <= bl -> 0 <= ldl_rrr bl fl.
Proof. intros H. unfold ldl_rrr. apply Rmin_glb; lra. Qed.

Lemma bp_rrr_nonneg (cur tgt : Z) : (tgt <= cur)%Z -> 0 <= bp_rrr cur tgt.
Proof.
  intros H. unfold bp_rrr. assert (0 <= IZR (cur - tgt)) by (apply IZR_le; lia).
  apply Rmin_glb; lra.
Qed.

(** With catalog ARRs in [[0, 100]], an LDL plan that does not raise LDL
    and an SBP target not above the current SBP, the final risk lies
    between 0 and a one-decimal baseline >= 0, and [arr >= 0]. *)
Theorem improving_plan_bounds (catalog : list intervention) (b : R) (h : horizon)
  (sel : list string) (bl fl : R) (cur tgt : Z) :
  Forall (fun iv => 0 <= iv_arr h iv <= 100) catalog -> fl <= bl -> (tgt <= cur)%Z ->
  py_round1 b = b -> 0 <= b ->
  0 <= final_risk (compose catalog b h sel bl fl cur tgt) <= b /\
  0 <= arr (compose catalog b h sel bl fl cur tgt).
Proof.
  intros Hc Hl Hs Hg Hb.
  assert (HF : 0 <= composed_remaining catalog b h sel bl fl cur tgt * 100 <= b).
  { unfold composed_remaining, ldl_step, bp_step.
    rewrite apply_interventions_product.
    destruct (iv_product_bounds catalog h sel sel Hc (incl_refl sel)) as [[A _] C].
    assert (L1 := ldl_rrr_le_35 bl fl). assert (L0 := ldl_rrr_nonneg bl fl Hl).
    assert (B1 := bp_rrr_le_20 cur tgt). assert (B0 := bp_rrr_nonneg cur tgt Hs).
    set (P := fold_right Rmult 1 (map (iv_factor h sel) catalog)) in *.
    set (x := 1 - ldl_rrr bl fl / 100). set (y := 1 - bp_rrr cur tgt / 100).
    assert (0 <= x <= 1) by (unfold x; lra). assert (0 <= y <= 1) by (unfold y; lra).
    assert (0 <= P * x <= 1) by nra. assert (0 <= P * x * y <= 1) by nra.
    split; nra. }
  unfold compose. cbn [final_risk arr].
  assert (M0 := py_round1_mono _ _ (proj1 HF)).
  assert (M1 := py_round1_mono _ _ (proj2 HF)).
  rewrite py_round1_0 in M0. rewrite Hg in M1.
  split; [lra|].
  assert (M2 := py_round1_mono 0 (b - py_round1 (composed_remaining catalog b h sel bl fl cur tgt * 100))
                  ltac:(lra)).
  rewrite py_round1_0 in M2. exact M2.
Qed.

Lemma improving_plan_bounds_witness :
  Forall (fun iv => 0 <= iv_arr H10yr iv <= 100) interventions /\ 2.0 <= 3.5 /\
  (120 <= 145)%Z /\ py_round1 (IZR 125 / 10) = IZR 125 / 10 /\ 0 <= IZR 125 / 10 /\
  0 <= final_risk (compose interventions (IZR 125 / 10) H10yr ["Empagliflozin"%string]
                     3.5 2.0 145 120) <= IZR 125 / 10 /\
  0 <= arr (compose interventions (IZR 125 / 10) H10yr ["Empagliflozin"%string]
              3.5 2.0 145 120).
Proof.
  assert (Hc : Forall (fun iv => 0 <= iv_arr H10yr iv <= 100) interventions)
    by (repeat constructor; cbn; lra).
  assert (Hl : 2.0 <= 3.5) by lra. assert (Hs : (120 <= 145)%Z) by lia.
  assert (Hg : py_round1 (IZR 125 / 10) = IZR 125 / 10).
  { unfold py_round1. replace (IZR 125 / 10 * 10) with (IZR 125) by field.
    replace (round_half_even (IZR 125)) with 125%Z; [reflexivity|].
    symmetry. apply round_half_even_unique. lra. }
  assert (Hb : 0 <= IZR 125 / 10) by lra.
  destruct (improving_plan_bounds interventions _ H10yr ["Empagliflozin"%string]
              3.5 2.0 145 120 Hc Hl Hs Hg Hb) as [A B].
  exact (conj Hc (conj Hl (conj Hs (conj Hg (conj Hb (conj A B)))))).
Defined.
